(** * The control residual model of crocoddyl

    A shallow embedding of
    [include/crocoddyl/core/residuals/control.hxx]: the three constructors
    of [ResidualModelControlTpl], the two [calc] overloads, [calcDiff],
    [createData] and the reference accessors, followed by the properties
    of the residual [r = u - uref] and of its constant Jacobian.

    Conventions of the embedding.
    - The class is a template over [Scalar]; the embedding is generic over
      a type with a zero, a one and a subtraction ([ScalarOps]).
    - An Eigen [VectorXs] is a [list Scalar]; a [MatrixXs] is the list of
      its rows.  Coefficients are read with stdpp's list lookup.
    - [std::size_t] dimensions are [nat]: they are sizes of vectors that
      exist in memory.
    - A member function that mutates the object behind [data] or the model
      itself is a computation of the monad [M]: it takes the store (the
      model [this] and the data object) and gives back an outcome and the
      store as it is when the call returns or throws. *)

From Stdlib Require Import ZArith Lia.
From stdpp Require Import base list strings pretty.

Open Scope string_scope.

(** ** Scalars, vectors, matrices *)

Class ScalarOps (Scalar : Type) := {
  s_zero : Scalar;
  s_one : Scalar;
  s_sub : Scalar -> Scalar -> Scalar
}.

Module Eigen.

(** The typedefs [VectorXs] and [MatrixXs] of [MathBaseTpl<Scalar>]. *)
Abbreviation VectorXs Scalar := (list Scalar).
Abbreviation MatrixXs Scalar := (list (list Scalar)).

Section Dense.
Context {Scalar : Type} `{ScalarOps Scalar}.
Local Abbreviation VectorXs := (VectorXs Scalar).
Local Abbreviation MatrixXs := (MatrixXs Scalar).

(** [VectorXs::Zero(n)] *)
Definition Zero (n : nat) : VectorXs := replicate n s_zero.

(** [v.setZero()]: every coefficient becomes zero, the size is kept. *)
Definition setZero (v : VectorXs) : VectorXs := replicate (length v) s_zero.

(** [a - b], coefficient by coefficient.  Eigen requires both operands to
    have the same size; [calc] only evaluates it on vectors of size [nu]
    (see [calc_operands_same_size]). *)
Definition minus (a b : VectorXs) : VectorXs := zip_with s_sub a b.

(** [MatrixXs::Zero(rows, cols)] *)
Definition ZeroMatrix (rows cols : nat) : MatrixXs :=
  replicate rows (replicate cols s_zero).

(** [MatrixXs::Identity(rows, cols)] *)
Definition Identity (rows cols : nat) : MatrixXs :=
  (fun i => (fun j => if decide (i = j) then s_one else s_zero) <$> seq 0 cols)
    <$> seq 0 rows.

(** The coefficient [(i, j)], when the matrix has one. *)
Definition coeff (A : MatrixXs) (i j : nat) : option Scalar :=
  A !! i ≫= (fun row => row !! j).

(** [A.diagonal().fill(c)]: the entries [(i, i)] that exist are
    overwritten with [c]; nothing else is written. *)
Definition diagonal_fill (c : Scalar) (A : MatrixXs) : MatrixXs :=
  imap (fun i row => <[i := c]> row) A.

(** [A] has [rows] rows of [cols] coefficients each. *)
Definition has_shape (rows cols : nat) (A : MatrixXs) : Prop :=
  length A = rows /\ Forall (fun row => length row = cols) A.

End Dense.
End Eigen.


(** ** Exceptions and the store monad *)

(** Modelled from the spec: the macros [throw_pretty] and [assert_pretty]
    come from [crocoddyl/core/utils/exception.hpp], which is not part of
    this file.  A [throw_pretty] raises the [InvalidArgument] condition
    with its message; a failed [assert_pretty] of a diagnostics build is a
    program-integrity failure, kept apart from [InvalidArgument]. *)
Inductive Exception : Type :=
  | InvalidArgument (msg : string)
  | AssertionFailure (msg : string).

Inductive Outcome (A : Type) : Type :=
  | Returned (a : A)
  | Thrown (e : Exception).
Arguments Returned {A} a.
Arguments Thrown {A} e.

Section Monad.
Context {St : Type}.

(** A call runs on a store and leaves a store behind, also when it throws:
    the objects it has written to stay written. *)
Definition M (A : Type) : Type := St -> Outcome A * St.

Definition ret {A} (a : A) : M A := fun s => (Returned a, s).

Definition bind {A B} (c : M A) (k : A -> M B) : M B :=
  fun s => match c s with
           | (Returned a, s') => k a s'
           | (Thrown e, s') => (Thrown e, s')
           end.

Definition throw {A} (e : Exception) : M A := fun s => (Thrown e, s).
Definition get : M St := fun s => (Returned s, s).
Definition modify (f : St -> St) : M unit := fun s => (Returned tt, f s).

(** [if (cond) { throw_pretty(msg) }] *)
Definition throw_pretty_if (cond : bool) (msg : string) : M unit :=
  if cond then throw (InvalidArgument msg) else ret tt.

Definition outcome {A} (c : M A) (s : St) : Outcome A := fst (c s).
Definition exec {A} (c : M A) (s : St) : St := snd (c s).

(** Run calls one after the other, whatever each of them answers (a caller
    that catches the exception and goes on). *)
Fixpoint exec_all {A} (cs : list (M A)) (s : St) : St :=
  match cs with
  | [] => s
  | c :: cs' => exec_all cs' (exec c s)
  end.

End Monad.
Arguments M St A : clear implicits.

#[export] Instance M_ret {St} : MRet (M St) := fun A => @ret St A.
#[export] Instance M_bind {St} : MBind (M St) := fun A B k c => @bind St A B c k.

(** ** The collaborators the residual consumes *)

(** Modelled from the spec: the state abstraction ([StateAbstract], an
    external collaborator) is consumed only for its tangent dimension. *)
Record StateAbstract : Type := { get_nv : nat }.

Section ResidualModelControl.
Context {Scalar : Type} `{ScalarOps Scalar} {DataCollectorAbstract : Type}.

Abbreviation VectorXs := (Eigen.VectorXs Scalar).
Abbreviation MatrixXs := (Eigen.MatrixXs Scalar).

(** ** The model

    Modelled from the spec: the members [state_], [nr_], [nu_] and the three
    dependency flags are those of the base class [ResidualModelAbstractTpl],
    whose declaration is not part of this file; [uref_] is the member of
    the control residual itself. *)
Record ResidualModelControlTpl : Type := {
  state_ : StateAbstract;
  nr_ : nat;
  nu_ : nat;
  q_dependent_ : bool;
  v_dependent_ : bool;
  u_dependent_ : bool;
  uref_ : VectorXs
}.

(** The member initialiser list
    [: Base(state, nr, nu, q_dependent, v_dependent, u_dependent), uref_(uref)].
    Modelled from the spec: the base constructor records its arguments. *)
Definition Base (state : StateAbstract) (nr nu : nat) (q v u : bool)
    (uref : VectorXs) : ResidualModelControlTpl :=
  {| state_ := state; nr_ := nr; nu_ := nu;
     q_dependent_ := q; v_dependent_ := v; u_dependent_ := u;
     uref_ := uref |}.

Definition autonomous_msg : string :=
  "Invalid argument: " +:+
  "it seems to be an autonomous system, if so, don't add this residual function".

(** [ResidualModelControlTpl(state, uref)] *)
Definition ResidualModelControl_uref (state : StateAbstract) (uref : VectorXs)
    : Outcome ResidualModelControlTpl :=
  let this := Base state (length uref) (length uref) false false true uref in
  if (nu_ this =? 0)%nat then Thrown (InvalidArgument autonomous_msg)
  else Returned this.

(** [ResidualModelControlTpl(state, nu)] *)
Definition ResidualModelControl_nu (state : StateAbstract) (nu : nat)
    : Outcome ResidualModelControlTpl :=
  let this := Base state nu nu false false true (Eigen.Zero nu) in
  if (nu_ this =? 0)%nat then Thrown (InvalidArgument autonomous_msg)
  else Returned this.

(** [ResidualModelControlTpl(state)]: the body is empty. *)
Definition ResidualModelControl_state (state : StateAbstract)
    : Outcome ResidualModelControlTpl :=
  let this := Base state (get_nv state) (get_nv state) false false true
                   (Eigen.Zero (get_nv state)) in
  Returned this.

(** ** The data object

    Modelled from the spec: [ResidualDataAbstract] is declared by the base
    class, outside this file.  It holds the handle of the data collector,
    the residual vector [r] and the Jacobians with respect to the state
    ([Rx]) and to the control ([Ru]). *)
Record ResidualDataAbstract : Type := {
  shared : DataCollectorAbstract;
  r : VectorXs;
  Rx : MatrixXs;
  Ru : MatrixXs
}.

Definition with_r (d : ResidualDataAbstract) (v : VectorXs) : ResidualDataAbstract :=
  {| shared := shared d; r := v; Rx := Rx d; Ru := Ru d |}.

Definition with_Ru (d : ResidualDataAbstract) (A : MatrixXs) : ResidualDataAbstract :=
  {| shared := shared d; r := r d; Rx := Rx d; Ru := A |}.

(** The objects a member function can reach: the model it is called on and
    the data object behind the [data] pointer. *)
Record Store : Type := {
  this : ResidualModelControlTpl;
  data : ResidualDataAbstract
}.

Definition with_data (s : Store) (d : ResidualDataAbstract) : Store :=
  {| this := this s; data := d |}.

Definition with_uref (s : Store) (v : VectorXs) : Store :=
  {| this := Base (state_ (this s)) (nr_ (this s)) (nu_ (this s))
                  (q_dependent_ (this s)) (v_dependent_ (this s))
                  (u_dependent_ (this s)) v;
     data := data s |}.

(** What this file takes from the rest of the library:
    - [ResidualDataAbstract_ctor model collector], the constructor of the
      base data object that [createData] calls through [allocate_shared];
    - [isApprox], Eigen's comparison up to a precision;
    - [NDEBUG], whether the build is a production build. *)
Variable ResidualDataAbstract_ctor :
  ResidualModelControlTpl -> DataCollectorAbstract -> ResidualDataAbstract.
Variable isApprox : MatrixXs -> MatrixXs -> bool.
Variable NDEBUG : bool.

(** [assert_pretty(cond, msg)]: nothing in a production build. *)
Definition assert_pretty (cond : bool) (msg : string) : M Store unit :=
  if NDEBUG then ret tt
  else if cond then ret tt else throw (AssertionFailure msg).

(** [calc(data, x, u)] *)
Definition calc (x u : VectorXs) : M Store unit :=
  s ← get;
  throw_pretty_if (negb (length u =? nu_ (this s))%nat)
    ("Invalid argument: " +:+
     "u has wrong dimension (it should be " +:+ pretty (nu_ (this s)) +:+ ")");;
  modify (fun s => with_data s (with_r (data s) (Eigen.minus u (uref_ (this s))))).

(** [calc(data, x)] *)
Definition calc_x (x : VectorXs) : M Store unit :=
  modify (fun s => with_data s (with_r (data s) (Eigen.setZero (r (data s))))).

(** [calcDiff(data, x, u)] *)
Definition calcDiff (x u : VectorXs) : M Store unit :=
  s ← get;
  assert_pretty
    (isApprox (Ru (data s)) (Eigen.Identity (nu_ (this s)) (nu_ (this s))))
    "Ru has wrong value".

(** [createData(_data)] *)
Definition createData (model : ResidualModelControlTpl)
    (_data : DataCollectorAbstract) : ResidualDataAbstract :=
  let data := ResidualDataAbstract_ctor model _data in
  with_Ru data (Eigen.diagonal_fill s_one (Ru data)).

(** [print(os)] *)
Definition print (os : string) : string := os +:+ "ResidualModelControl".

(** [get_reference()] *)
Definition get_reference (model : ResidualModelControlTpl) : VectorXs :=
  uref_ model.

(** [set_reference(reference)] *)
Definition set_reference (reference : VectorXs) : M Store unit :=
  s ← get;
  throw_pretty_if (negb (length reference =? nu_ (this s))%nat)
    ("Invalid argument: " +:+
     "the control reference has wrong dimension (" +:+ pretty (length reference) +:+
     " provided - it should be " +:+ pretty (nu_ (this s)) +:+ ")");;
  modify (fun s => with_uref s reference).

(** ** Calls of a driver *)

(** The evaluation calls a driver makes on a (model, data) pair. *)
Inductive Call : Type :=
  | Calc (x u : VectorXs)
  | CalcState (x : VectorXs)
  | CalcDiff (x u : VectorXs).

Definition run_call (c : Call) : M Store unit :=
  match c with
  | Calc x u => calc x u
  | CalcState x => calc_x x
  | CalcDiff x u => calcDiff x u
  end.

(** ** Well-formed models and data *)

(** What the three constructors establish and [set_reference] keeps. *)
Definition valid_model (m : ResidualModelControlTpl) : Prop :=
  nr_ m = nu_ m /\ length (uref_ m) = nu_ m.

(** A data object dimensioned for the model [m]. *)
Definition sized_for (m : ResidualModelControlTpl) (d : ResidualDataAbstract) : Prop :=
  length (r d) = nr_ m /\ Eigen.has_shape (nr_ m) (nu_ m) (Ru d).

(** ** Calls of a client *)

(** Every call this file offers on a constructed model: the evaluation
    calls and the reference setter. *)
Inductive Op : Type :=
  | Evaluate (k : Call)
  | SetReference (reference : VectorXs).

Definition run_op (o : Op) : M Store unit :=
  match o with
  | Evaluate k => run_call k
  | SetReference reference => set_reference reference
  end.

(** The messages of the two dimension checks. *)
Definition calc_msg (nu : nat) : string :=
  "Invalid argument: " +:+
  "u has wrong dimension (it should be " +:+ pretty nu +:+ ")".

Definition set_reference_msg (provided nu : nat) : string :=
  "Invalid argument: " +:+
  "the control reference has wrong dimension (" +:+ pretty provided +:+
  " provided - it should be " +:+ pretty nu +:+ ")".

End ResidualModelControl.

Arguments Op Scalar : clear implicits.
Arguments ResidualModelControlTpl Scalar : clear implicits.
Arguments ResidualDataAbstract Scalar DataCollectorAbstract : clear implicits.
Arguments Store Scalar DataCollectorAbstract : clear implicits.
Arguments Call Scalar : clear implicits.

(** ** A concrete instance: integer scalars

    Used to run the definitions on concrete inputs. *)

#[export] Instance Z_ScalarOps : ScalarOps Z :=
  {| s_zero := 0%Z; s_one := 1%Z; s_sub := Z.sub |}.

(** A base data constructor that sizes [r], [Rx] and [Ru] from the model and
    fills them with zeros. *)
Definition zeroed_ctor (m : ResidualModelControlTpl Z) (c : unit)
    : ResidualDataAbstract Z unit :=
  {| shared := c;
     r := Eigen.Zero (nr_ m);
     Rx := Eigen.ZeroMatrix (nr_ m) (get_nv (state_ m));
     Ru := Eigen.ZeroMatrix (nr_ m) (nu_ m) |}.

(** A base data constructor that sizes the buffers and fills them with a
    value that is not zero. *)
Definition dirty_ctor (m : ResidualModelControlTpl Z) (c : unit)
    : ResidualDataAbstract Z unit :=
  {| shared := c;
     r := replicate (nr_ m) 7%Z;
     Rx := replicate (nr_ m) (replicate (get_nv (state_ m)) 7%Z);
     Ru := replicate (nr_ m) (replicate (nu_ m) 7%Z) |}.

(** Exact comparison, as a stand-in for [isApprox] on integers. *)
Definition Z_isApprox (A B : Eigen.MatrixXs Z) : bool := bool_decide (A = B).

(** The model with reference [[1; 2; 3]] over a state of tangent dimension 3. *)
Definition model123 : ResidualModelControlTpl Z :=
  Base {| get_nv := 3 |} 3 3 false false true [1; 2; 3]%Z.

Definition store123 : Store Z unit :=
  {| this := model123; data := createData zeroed_ctor model123 tt |}.

(** The store of [model123] after a first evaluation: [r] is [[3; 4; 5]]. *)
Definition store123_evaluated : Store Z unit :=
  exec (calc [] [4; 6; 8]%Z) store123.

(** A driver's calls on [store123]: two evaluations, one of them refused,
    a change of reference, a refused change and a differentiation. *)
Definition calls123 : list (Op Z) :=
  [Evaluate (Calc [] [4; 6; 8]%Z); Evaluate (Calc [] [4; 6]%Z);
   SetReference [7; 7; 7]%Z; SetReference [7]%Z;
   Evaluate (CalcDiff [] [4; 6; 8]%Z); Evaluate (CalcState [])].

(** ** Facts on vectors and matrices *)

Section EigenFacts.
Context {Scalar : Type} `{ScalarOps Scalar}.
Implicit Types (A B : Eigen.MatrixXs Scalar) (v w : Eigen.VectorXs Scalar).

Lemma length_Zero n : length (Eigen.Zero n : Eigen.VectorXs Scalar) = n.
Proof. apply length_replicate. Qed.

Lemma length_setZero v : length (Eigen.setZero v) = length v.
Proof. apply length_replicate. Qed.

Lemma setZero_sized v n : length v = n -> Eigen.setZero v = Eigen.Zero n.
Proof. intros <-. reflexivity. Qed.

Lemma length_minus v w :
  length v = length w -> length (Eigen.minus v w) = length v.
Proof. intros E. unfold Eigen.minus. rewrite length_zip_with. lia. Qed.

Lemma lookup_minus v w i a b :
  v !! i = Some a -> w !! i = Some b ->
  Eigen.minus v w !! i = Some (s_sub a b).
Proof.
  intros Ha Hb. unfold Eigen.minus.
  rewrite lookup_zip_with, Ha, Hb. reflexivity.
Qed.

Lemma coeff_Some A i j c :
  Eigen.coeff A i j = Some c <-> exists row, A !! i = Some row /\ row !! j = Some c.
Proof.
  unfold Eigen.coeff. destruct (A !! i) as [row|]; simpl.
  - split; [intros E; exists row; auto | intros (row' & [= <-] & E); exact E].
  - split; [discriminate | intros (row' & [=] & _)].
Qed.

(** An entry off the diagonal is not touched by [diagonal().fill]. *)
Lemma coeff_diagonal_fill_ne c A i j :
  i <> j -> Eigen.coeff (Eigen.diagonal_fill c A) i j = Eigen.coeff A i j.
Proof.
  intros Hij. unfold Eigen.coeff, Eigen.diagonal_fill.
  rewrite list_lookup_imap. destruct (A !! i) as [row|]; simpl; [|reflexivity].
  apply list_lookup_insert_ne, Hij.
Qed.

(** An entry of the diagonal that exists is overwritten. *)
Lemma coeff_diagonal_fill_eq c A i :
  is_Some (Eigen.coeff A i i) ->
  Eigen.coeff (Eigen.diagonal_fill c A) i i = Some c.
Proof.
  intros [a Ha]. apply coeff_Some in Ha as (row & Hrow & Ha).
  unfold Eigen.coeff, Eigen.diagonal_fill.
  rewrite list_lookup_imap, Hrow. simpl.
  apply list_lookup_insert_eq. eapply lookup_lt_Some, Ha.
Qed.

Lemma diagonal_fill_shape c A n m :
  Eigen.has_shape n m A -> Eigen.has_shape n m (Eigen.diagonal_fill c A).
Proof.
  intros [Hn Hm]. split.
  - unfold Eigen.diagonal_fill. rewrite length_imap. exact Hn.
  - apply Forall_lookup. intros i row Hi.
    unfold Eigen.diagonal_fill in Hi.
    apply list_lookup_imap_Some in Hi as (row' & Hrow' & ->).
    rewrite length_insert.
    exact (proj1 (Forall_lookup _ _) Hm i row' Hrow').
Qed.

Lemma ZeroMatrix_shape n m : Eigen.has_shape n m (Eigen.ZeroMatrix n m).
Proof.
  split.
  - apply length_replicate.
  - apply Forall_replicate. apply length_replicate.
Qed.

Lemma Identity_shape n m : Eigen.has_shape n m (Eigen.Identity n m).
Proof.
  split.
  - unfold Eigen.Identity. rewrite length_fmap. apply length_seq.
  - apply Forall_fmap, Forall_forall. intros i _. simpl.
    rewrite length_fmap. apply length_seq.
Qed.

Lemma coeff_ZeroMatrix n m i j :
  i < n -> j < m -> Eigen.coeff (Eigen.ZeroMatrix n m) i j = Some s_zero.
Proof.
  intros Hi Hj. unfold Eigen.coeff, Eigen.ZeroMatrix.
  rewrite lookup_replicate_2 by exact Hi. simpl.
  apply lookup_replicate_2, Hj.
Qed.

Lemma coeff_Identity n m i j :
  i < n -> j < m ->
  Eigen.coeff (Eigen.Identity n m) i j
  = Some (if decide (i = j) then s_one else s_zero).
Proof.
  intros Hi Hj. unfold Eigen.coeff, Eigen.Identity.
  rewrite list_lookup_fmap, lookup_seq_lt by exact Hi. simpl.
  rewrite list_lookup_fmap, lookup_seq_lt by exact Hj. reflexivity.
Qed.

Lemma shape_coeff_is_Some A n m i j :
  Eigen.has_shape n m A -> i < n -> j < m -> is_Some (Eigen.coeff A i j).
Proof.
  intros [Hn Hm] Hi Hj.
  destruct (lookup_lt_is_Some_2 A i) as [row Hrow]; [lia|].
  pose proof (proj1 (Forall_lookup _ _) Hm i row Hrow) as Hlen. simpl in Hlen.
  destruct (lookup_lt_is_Some_2 row j) as [c Hc]; [lia|].
  exists c. apply coeff_Some. eauto.
Qed.

(** Two matrices of one shape with the same coefficients are equal. *)
Lemma matrix_ext A B n m :
  Eigen.has_shape n m A -> Eigen.has_shape n m B ->
  (forall i j, i < n -> j < m -> Eigen.coeff A i j = Eigen.coeff B i j) ->
  A = B.
Proof.
  intros [HnA HmA] [HnB HmB] Hc.
  apply (list_eq_same_length _ _ n); [exact HnB | exact HnA |].
  intros i rowA rowB Hi HA HB.
  pose proof (proj1 (Forall_lookup _ _) HmA i rowA HA) as HlA.
  pose proof (proj1 (Forall_lookup _ _) HmB i rowB HB) as HlB.
  simpl in HlA, HlB.
  apply (list_eq_same_length _ _ m); [exact HlB | exact HlA |].
  intros j a b Hj Ha Hb.
  specialize (Hc i j Hi Hj). unfold Eigen.coeff in Hc.
  rewrite HA, HB in Hc. simpl in Hc. congruence.
Qed.

(** Filling the diagonal of a zeroed buffer with ones gives the identity. *)
Lemma diagonal_fill_ZeroMatrix n m :
  Eigen.diagonal_fill s_one (Eigen.ZeroMatrix n m) = Eigen.Identity n m.
Proof.
  apply (matrix_ext _ _ n m).
  - apply diagonal_fill_shape, ZeroMatrix_shape.
  - apply Identity_shape.
  - intros i j Hi Hj. rewrite coeff_Identity by assumption.
    destruct (decide (i = j)) as [->|Hne].
    + apply coeff_diagonal_fill_eq. rewrite coeff_ZeroMatrix by assumption. eauto.
    + rewrite coeff_diagonal_fill_ne by exact Hne. apply coeff_ZeroMatrix; assumption.
Qed.

End EigenFacts.

(** ** Properties of the control residual *)

Section Properties.
Context {Scalar : Type} `{ScalarOps Scalar} {DataCollectorAbstract : Type}.

Local Abbreviation VectorXs := (Eigen.VectorXs Scalar).
Local Abbreviation MatrixXs := (Eigen.MatrixXs Scalar).
Local Abbreviation Model := (ResidualModelControlTpl Scalar).
Local Abbreviation Data := (ResidualDataAbstract Scalar DataCollectorAbstract).

Variable ResidualDataAbstract_ctor : Model -> DataCollectorAbstract -> Data.
Variable isApprox : MatrixXs -> MatrixXs -> bool.
Variable NDEBUG : bool.

Implicit Types (s : Store Scalar DataCollectorAbstract) (m : Model) (d : Data).
Implicit Types (x u reference : VectorXs) (c : DataCollectorAbstract).

(** *** Construction *)

Lemma ctor_uref_valid state uref m :
  ResidualModelControl_uref state uref = Returned m ->
  valid_model m /\ 0 < nu_ m /\ uref_ m = uref.
Proof.
  unfold ResidualModelControl_uref. simpl.
  destruct (length uref =? 0)%nat eqn:E; [discriminate|].
  intros [= <-]. apply Nat.eqb_neq in E.
  unfold valid_model. simpl. repeat split; lia.
Qed.

Lemma ctor_nu_valid state nu m :
  ResidualModelControl_nu state nu = Returned m ->
  valid_model m /\ 0 < nu_ m /\ nu_ m = nu.
Proof.
  unfold ResidualModelControl_nu. simpl.
  destruct (nu =? 0)%nat eqn:E; [discriminate|].
  intros [= <-]. apply Nat.eqb_neq in E.
  unfold valid_model. simpl. rewrite length_Zero. repeat split; lia.
Qed.

Lemma ctor_state_valid state m :
  ResidualModelControl_state state = Returned m ->
  valid_model m /\ nu_ m = get_nv state.
Proof.
  unfold ResidualModelControl_state. intros [= <-].
  unfold valid_model. simpl. rewrite length_Zero. auto.
Qed.

(** The two constructors that look at [nu_] refuse a zero dimension. *)
Lemma ctor_uref_zero_fails state :
  ResidualModelControl_uref state ([] : VectorXs)
  = Thrown (InvalidArgument autonomous_msg).
Proof. reflexivity. Qed.

Lemma ctor_nu_zero_fails state :
  @ResidualModelControl_nu Scalar _ state 0
  = Thrown (InvalidArgument autonomous_msg).
Proof. reflexivity. Qed.

(** *** Equations of the member functions *)

Lemma calc_ok s x u :
  length u = nu_ (this s) ->
  calc x u s
  = (Returned tt,
     with_data s (with_r (data s) (Eigen.minus u (uref_ (this s))))).
Proof.
  intros E. unfold calc, mbind, M_bind, bind, get, throw_pretty_if. simpl.
  rewrite (proj2 (Nat.eqb_eq _ _) E). reflexivity.
Qed.

Lemma calc_wrong s x u :
  length u <> nu_ (this s) ->
  calc x u s
  = (Thrown (InvalidArgument
       ("Invalid argument: " +:+ "u has wrong dimension (it should be " +:+
        pretty (nu_ (this s)) +:+ ")")), s).
Proof.
  intros E. unfold calc, mbind, M_bind, bind, get, throw_pretty_if. simpl.
  rewrite (proj2 (Nat.eqb_neq _ _) E). reflexivity.
Qed.

Lemma calc_x_eq s x :
  calc_x x s = (Returned tt, with_data s (with_r (data s) (Eigen.setZero (r (data s))))).
Proof. reflexivity. Qed.

(** [calcDiff] reads the store and writes nothing, whatever it answers. *)
Lemma calcDiff_exec s x u : exec (calcDiff isApprox NDEBUG x u) s = s.
Proof.
  unfold exec, calcDiff, assert_pretty, mbind, M_bind, bind, get. simpl.
  destruct NDEBUG; [reflexivity|].
  destruct (isApprox _ _); reflexivity.
Qed.

Lemma calcDiff_production s x u :
  NDEBUG = true -> calcDiff isApprox NDEBUG x u s = (Returned tt, s).
Proof.
  intros ->. reflexivity.
Qed.

Lemma set_reference_ok s reference :
  length reference = nu_ (this s) ->
  set_reference reference s = (Returned tt, with_uref s reference).
Proof.
  intros E. unfold set_reference, mbind, M_bind, bind, get, throw_pretty_if. simpl.
  rewrite (proj2 (Nat.eqb_eq _ _) E). reflexivity.
Qed.

Lemma set_reference_wrong s reference :
  length reference <> nu_ (this s) ->
  set_reference reference s
  = (Thrown (InvalidArgument
       ("Invalid argument: " +:+ "the control reference has wrong dimension (" +:+
        pretty (length reference) +:+ " provided - it should be " +:+
        pretty (nu_ (this s)) +:+ ")")), s).
Proof.
  intros E. unfold set_reference, mbind, M_bind, bind, get, throw_pretty_if. simpl.
  rewrite (proj2 (Nat.eqb_neq _ _) E). reflexivity.
Qed.

(** *** Invariants *)

Lemma set_reference_valid s reference :
  valid_model (this s) -> valid_model (this (exec (set_reference reference) s)).
Proof.
  intros [Hr Hu]. unfold exec.
  destruct (decide (length reference = nu_ (this s))) as [E|E].
  - rewrite set_reference_ok by exact E. split; simpl; assumption.
  - rewrite set_reference_wrong by exact E. split; assumption.
Qed.

(** Whenever [calc] gets to the subtraction, its operands have one size. *)
Lemma calc_operands_same_size s u :
  valid_model (this s) -> length u = nu_ (this s) ->
  length u = length (uref_ (this s)).
Proof. intros [_ Hu] E. congruence. Qed.

(** No evaluation call writes to the model. *)
Lemma run_call_this s (k : Call Scalar) :
  this (exec (run_call isApprox NDEBUG k) s) = this s.
Proof.
  destruct k as [x u|x|x u]; simpl.
  - unfold exec. destruct (decide (length u = nu_ (this s))) as [E|E].
    + rewrite calc_ok by exact E. reflexivity.
    + rewrite calc_wrong by exact E. reflexivity.
  - reflexivity.
  - rewrite calcDiff_exec. reflexivity.
Qed.

Lemma exec_all_calls_this (ks : list (Call Scalar)) s :
  this (exec_all (run_call isApprox NDEBUG <$> ks) s) = this s.
Proof.
  revert s. induction ks as [|k ks IH]; intros s; simpl; [reflexivity|].
  rewrite IH. apply run_call_this.
Qed.

(** The evaluation calls keep a data object dimensioned for its model. *)
Lemma run_call_sized s (k : Call Scalar) :
  valid_model (this s) -> sized_for (this s) (data s) ->
  sized_for (this (exec (run_call isApprox NDEBUG k) s))
            (data (exec (run_call isApprox NDEBUG k) s)).
Proof.
  intros Hv [Hr HRu]. destruct k as [x u|x|x u]; simpl.
  - unfold exec. destruct (decide (length u = nu_ (this s))) as [E|E].
    + rewrite calc_ok by exact E. split; simpl; [|exact HRu].
      rewrite length_minus by (apply calc_operands_same_size; assumption).
      destruct Hv as [Hnr _]. congruence.
    + rewrite calc_wrong by exact E. split; assumption.
  - split; simpl; [|exact HRu]. rewrite length_setZero. exact Hr.
  - rewrite calcDiff_exec. split; assumption.
Qed.

Lemma exec_all_calcDiff (args : list (VectorXs * VectorXs)) s :
  exec_all ((fun xu => calcDiff isApprox NDEBUG xu.1 xu.2) <$> args) s = s.
Proof.
  revert s. induction args as [|xu args IH]; intros s; simpl; [reflexivity|].
  rewrite calcDiff_exec. apply IH.
Qed.

(** [createData] hands out a data object dimensioned for the model when the
    base constructor does. *)
Lemma createData_sized m c :
  sized_for m (ResidualDataAbstract_ctor m c) ->
  sized_for m (createData ResidualDataAbstract_ctor m c).
Proof.
  intros [Hr HRu]. split; simpl; [exact Hr|].
  apply diagonal_fill_shape, HRu.
Qed.

(** *** The residual *)

(** C1: on a model whose reference [uref] has length [n > 0], [calc(data, x, u)]
    with a control [u] of length [n] returns normally and leaves in [data.r]
    the componentwise difference [u - uref]: [data.r] has length [n] and its
    coefficient [i] is [u_i - uref_i] for every [i < n]. *)
Theorem calc_residual s n x u :
  valid_model (this s) ->
  0 < n ->
  length (uref_ (this s)) = n ->
  length u = n ->
  outcome (calc x u) s = Returned tt /\
  r (data (exec (calc x u) s)) = Eigen.minus u (uref_ (this s)) /\
  length (r (data (exec (calc x u) s))) = n /\
  forall i, i < n ->
    exists a b, u !! i = Some a /\ uref_ (this s) !! i = Some b /\
                r (data (exec (calc x u) s)) !! i = Some (s_sub a b).
Proof.
  intros [Hnr Hu] Hn Href Hlen.
  assert (E : length u = nu_ (this s)) by congruence.
  unfold outcome, exec. rewrite calc_ok by exact E. simpl.
  split; [reflexivity|]. split; [reflexivity|]. split.
  - rewrite length_minus; congruence.
  - intros i Hi.
    destruct (lookup_lt_is_Some_2 u i) as [a Ha]; [lia|].
    destruct (lookup_lt_is_Some_2 (uref_ (this s)) i) as [b Hb]; [lia|].
    exists a, b. split; [exact Ha|]. split; [exact Hb|].
    apply lookup_minus; assumption.
Qed.

(** C4: [calc(data, x, u)] with a control whose length is not [nu] throws
    InvalidArgument, and the store is what it was before the call: in
    particular [data.r] keeps its prior value. *)
Theorem calc_wrong_dimension s x u :
  length u <> nu_ (this s) ->
  (exists msg, outcome (calc x u) s = Thrown (InvalidArgument msg)) /\
  exec (calc x u) s = s /\
  r (data (exec (calc x u) s)) = r (data s).
Proof.
  intros E. unfold outcome, exec. rewrite calc_wrong by exact E. simpl.
  split; [eexists; reflexivity|]. split; reflexivity.
Qed.

(** C5: on a data object whose [r] is dimensioned for the model (length
    [nu]), the state-only [calc(data, x)] returns normally and leaves in
    [data.r] the zero vector of length [nu], whatever [data.r] held. *)
Theorem calc_state_only_zero s x :
  length (r (data s)) = nu_ (this s) ->
  outcome (calc_x x) s = Returned tt /\
  r (data (exec (calc_x x) s)) = replicate (nu_ (this s)) s_zero.
Proof.
  intros E. split; [reflexivity|].
  simpl. unfold Eigen.setZero. rewrite E. reflexivity.
Qed.

(** C7: the answer of [calc(data, x, u)] and the store it leaves do not
    depend on the state argument [x]. *)
Theorem calc_state_independent s x1 x2 u :
  calc x1 u s = calc x2 u s /\
  r (data (exec (calc x1 u) s)) = r (data (exec (calc x2 u) s)).
Proof. split; reflexivity. Qed.

(** C9: a call [calc(data, x, u)] with [u] of length [nu] returns normally
    and writes [data.r] only: the model (with [nu], [nr] and [uref]) and the
    fields [shared], [Rx] and [Ru] of the data object are unchanged. *)
Theorem calc_frame s x u :
  length u = nu_ (this s) ->
  outcome (calc x u) s = Returned tt /\
  this (exec (calc x u) s) = this s /\
  shared (data (exec (calc x u) s)) = shared (data s) /\
  Rx (data (exec (calc x u) s)) = Rx (data s) /\
  Ru (data (exec (calc x u) s)) = Ru (data s).
Proof.
  intros E. unfold outcome, exec. rewrite calc_ok by exact E. simpl.
  repeat split.
Qed.

(** *** The reference *)

(** C8: the constructor taking an explicit dimension [nu > 0] returns a
    model of that dimension whose reference getter reads the zero vector of
    length [nu]. *)
Theorem ctor_nu_reference_zero state nu :
  0 < nu ->
  exists m, ResidualModelControl_nu state nu = Returned m /\
            nu_ m = nu /\
            get_reference m = replicate nu (s_zero : Scalar).
Proof.
  intros Hnu. unfold ResidualModelControl_nu. simpl.
  destruct (nu =? 0)%nat eqn:E; [apply Nat.eqb_eq in E; lia|].
  eexists. split; [reflexivity|]. split; reflexivity.
Qed.

(** C6: [set_reference] with a vector of length [nu] returns normally, and
    after any evaluation calls that follow, [calc(data, x, u)] with [u] of
    length [nu] leaves [u] minus the new reference in [data.r]: [data.r] has
    length [nu] and its coefficient [i] is [u_i - reference_i] for every
    [i < nu]; [set_reference] with a vector of another length throws
    InvalidArgument and leaves the store, so [uref], as it was. *)
Theorem set_reference_contract s reference :
  (length reference = nu_ (this s) ->
     outcome (set_reference reference) s = Returned tt /\
     get_reference (this (exec (set_reference reference) s)) = reference /\
     forall (ks : list (Call Scalar)) x u,
       length u = nu_ (this s) ->
       let s' := exec_all (run_call isApprox NDEBUG <$> ks)
                          (exec (set_reference reference) s) in
       outcome (calc x u) s' = Returned tt /\
       r (data (exec (calc x u) s')) = Eigen.minus u reference /\
       length (r (data (exec (calc x u) s'))) = nu_ (this s) /\
       forall i, i < nu_ (this s) ->
         exists a b, u !! i = Some a /\ reference !! i = Some b /\
                     r (data (exec (calc x u) s')) !! i = Some (s_sub a b)) /\
  (length reference <> nu_ (this s) ->
     (exists msg, outcome (set_reference reference) s
                  = Thrown (InvalidArgument msg)) /\
     exec (set_reference reference) s = s /\
     get_reference (this (exec (set_reference reference) s))
     = get_reference (this s)).
Proof.
  split; intros E.
  - assert (Hset : exec (set_reference reference) s = with_uref s reference)
      by (unfold exec; rewrite set_reference_ok by exact E; reflexivity).
    rewrite Hset. split; [|split; [reflexivity|]].
    + unfold outcome. rewrite set_reference_ok by exact E. reflexivity.
    + intros ks x u Hu s'.
      assert (Hthis : this s' = this (with_uref s reference))
        by apply exec_all_calls_this.
      unfold outcome, exec. rewrite calc_ok by (rewrite Hthis; exact Hu).
      cbn [fst snd with_data with_r r data]. rewrite Hthis.
      split; [reflexivity|]. split; [reflexivity|].
      cbn [with_uref this uref_ Base]. split.
      * rewrite length_minus by congruence. exact Hu.
      * intros i Hi.
        destruct (lookup_lt_is_Some_2 u i) as [a Ha]; [lia|].
        destruct (lookup_lt_is_Some_2 reference i) as [b Hb]; [lia|].
        exists a, b. split; [exact Ha|]. split; [exact Hb|].
        apply lookup_minus; assumption.
  - unfold outcome, exec. rewrite set_reference_wrong by exact E. simpl.
    split; [eexists; reflexivity|]. split; reflexivity.
Qed.

(** *** The Jacobian *)

(** C3: for a valid model whose base data constructor hands over a zeroed
    [nr x nu] buffer for [Ru], the data object returned by [createData] has
    [Ru] equal to the [nu x nu] identity, it still has after any number of
    [calcDiff] calls, and no [calcDiff] call on any store changes [Ru]. *)
Theorem createData_Ru_identity m c :
  valid_model m ->
  Ru (ResidualDataAbstract_ctor m c) = Eigen.ZeroMatrix (nr_ m) (nu_ m) ->
  Ru (createData ResidualDataAbstract_ctor m c)
  = Eigen.Identity (nu_ m) (nu_ m) /\
  (forall (args : list (VectorXs * VectorXs)),
     Ru (data (exec_all
                 ((fun xu => calcDiff isApprox NDEBUG xu.1 xu.2) <$> args)
                 {| this := m;
                    data := createData ResidualDataAbstract_ctor m c |}))
     = Eigen.Identity (nu_ m) (nu_ m)) /\
  (forall s x u,
     Ru (data (exec (calcDiff isApprox NDEBUG x u) s)) = Ru (data s)).
Proof.
  intros [Hnr _] Hzero.
  assert (HRu : Ru (createData ResidualDataAbstract_ctor m c)
                = Eigen.Identity (nu_ m) (nu_ m)).
  { unfold createData. simpl. rewrite Hzero, Hnr.
    apply diagonal_fill_ZeroMatrix. }
  split; [exact HRu|]. split.
  - intros args. rewrite exec_all_calcDiff. exact HRu.
  - intros s x u. rewrite calcDiff_exec. reflexivity.
Qed.

(** C10: [createData] writes the diagonal of [Ru] only.  The other fields
    and every off-diagonal entry of [Ru] are as the base constructor made
    them, every diagonal entry the buffer has holds one, and so [Ru] is the
    identity only if the base constructor left zero in every off-diagonal
    entry (and it is, when the buffer is [nr x nu] with those zeros). *)
Theorem createData_writes_diagonal_only m c :
  let base := ResidualDataAbstract_ctor m c in
  let d := createData ResidualDataAbstract_ctor m c in
  (shared d = shared base /\ r d = r base /\ Rx d = Rx base) /\
  (forall i j, i <> j -> Eigen.coeff (Ru d) i j = Eigen.coeff (Ru base) i j) /\
  (forall i, is_Some (Eigen.coeff (Ru base) i i) ->
             Eigen.coeff (Ru d) i i = Some s_one) /\
  (Ru d = Eigen.Identity (nr_ m) (nu_ m) ->
   forall i j, i < nr_ m -> j < nu_ m -> i <> j ->
               Eigen.coeff (Ru base) i j = Some s_zero) /\
  (Eigen.has_shape (nr_ m) (nu_ m) (Ru base) ->
   (forall i j, i < nr_ m -> j < nu_ m -> i <> j ->
                Eigen.coeff (Ru base) i j = Some s_zero) ->
   Ru d = Eigen.Identity (nr_ m) (nu_ m)).
Proof.
  intros base d. split; [repeat split|]. split; [|split; [|split]].
  - intros i j Hij. apply coeff_diagonal_fill_ne, Hij.
  - intros i Hi. apply coeff_diagonal_fill_eq, Hi.
  - intros Hid i j Hi Hj Hij.
    rewrite <- (coeff_diagonal_fill_ne s_one (Ru base) i j Hij).
    change (Eigen.diagonal_fill s_one (Ru base)) with (Ru d).
    rewrite Hid, coeff_Identity by assumption.
    destruct (decide (i = j)); [contradiction|reflexivity].
  - intros Hshape Hoff.
    apply (matrix_ext _ _ (nr_ m) (nu_ m)).
    + apply diagonal_fill_shape, Hshape.
    + apply Identity_shape.
    + intros i j Hi Hj. rewrite coeff_Identity by assumption.
      destruct (decide (i = j)) as [->|Hne].
      * apply coeff_diagonal_fill_eq.
        apply (shape_coeff_is_Some _ (nr_ m) (nu_ m)); assumption.
      * simpl. rewrite coeff_diagonal_fill_ne by exact Hne.
        apply Hoff; assumption.
Qed.

(** *** Construction with a zero dimension *)

(** C2: the constructor that takes the dimension from the state returns a
    model of control dimension zero when the state's tangent dimension is
    zero; it does not throw.  (The two other constructors throw there:
    [ctor_uref_zero_fails], [ctor_nu_zero_fails].) *)
Theorem ctor_state_accepts_zero_dimension :
  @ResidualModelControl_state Scalar _ {| get_nv := 0 |}
  = Returned (Base {| get_nv := 0 |} 0 0 false false true []) /\
  forall state, exists m,
    @ResidualModelControl_state Scalar _ state = Returned m /\
    nu_ m = get_nv state.
Proof.
  split; [reflexivity|].
  intros state. eexists. split; reflexivity.
Qed.

(** *** Construction, continued *)

(** X1: a model returned by any of the three constructors has
    [nr = nu = length uref], keeps the state it was given, and is marked as
    depending on the control only. *)
Theorem construction_establishes_invariant state (uref : VectorXs) nu m :
  ResidualModelControl_uref state uref = Returned m \/
  ResidualModelControl_nu state nu = Returned m \/
  ResidualModelControl_state state = Returned m ->
  valid_model m /\ state_ m = state /\
  q_dependent_ m = false /\ v_dependent_ m = false /\ u_dependent_ m = true.
Proof.
  unfold ResidualModelControl_uref, ResidualModelControl_nu,
    ResidualModelControl_state. simpl.
  intros [Hm|[Hm|Hm]].
  - destruct (length uref =? 0)%nat; [discriminate|].
    injection Hm as <-. repeat split.
  - destruct (nu =? 0)%nat; [discriminate|].
    injection Hm as <-. repeat split. simpl. apply length_Zero.
  - injection Hm as <-. repeat split. simpl. apply length_Zero.
Qed.

(** X2: the two constructors that receive the control dimension fail
    exactly when that dimension is zero, and then with the InvalidArgument
    condition that names an autonomous system. *)
Theorem construction_fails_iff_zero state (uref : VectorXs) nu :
  (forall e, ResidualModelControl_uref state uref = Thrown e <->
             uref = [] /\ e = InvalidArgument autonomous_msg) /\
  (forall e, @ResidualModelControl_nu Scalar _ state nu = Thrown e <->
             nu = 0 /\ e = InvalidArgument autonomous_msg).
Proof.
  unfold ResidualModelControl_uref, ResidualModelControl_nu. simpl.
  split; intros e.
  - destruct uref as [|a uref]; simpl.
    + split; [intros [= <-]; auto | intros [_ ->]; reflexivity].
    + split; [discriminate | intros [[=] _]].
  - destruct nu as [|nu]; simpl.
    + split; [intros [= <-]; auto | intros [_ ->]; reflexivity].
    + split; [discriminate | intros [[=] _]].
Qed.

(** X3: the constructor taking a reference keeps it: on a non-empty
    [uref] it returns a model whose getter reads [uref] back and whose
    dimensions [nu] and [nr] are the length of [uref]. *)
Theorem ctor_uref_reference_roundtrip state (uref : VectorXs) :
  uref <> [] ->
  exists m, ResidualModelControl_uref state uref = Returned m /\
            get_reference m = uref /\
            nu_ m = length uref /\ nr_ m = length uref.
Proof.
  intros Hne. unfold ResidualModelControl_uref. simpl.
  destruct uref as [|a uref]; [contradiction|]. simpl.
  eexists. split; [reflexivity|]. repeat split.
Qed.

(** X4: on a state of tangent dimension [nv > 0], the constructor taking
    only the state returns a model whose dimensions are [nv] and whose
    reference is the zero vector of that length. *)
Theorem ctor_state_reference_zero state :
  0 < get_nv state ->
  exists m, @ResidualModelControl_state Scalar _ state = Returned m /\
            nu_ m = get_nv state /\ nr_ m = get_nv state /\
            get_reference m = replicate (get_nv state) s_zero /\
            forall i, i < get_nv state -> get_reference m !! i = Some s_zero.
Proof.
  intros _. eexists. split; [reflexivity|]. repeat split.
  intros i Hi. simpl. unfold Eigen.Zero. apply lookup_replicate_2, Hi.
Qed.

(** *** The reference setter, continued *)

Lemma with_uref_current s : with_uref s (uref_ (this s)) = s.
Proof. destruct s as [[] ?]. reflexivity. Qed.

Lemma set_reference_exec s reference :
  exec (set_reference reference) s
  = if decide (length reference = nu_ (this s))
    then with_uref s reference else s.
Proof.
  unfold exec. destruct (decide _) as [E|E].
  - rewrite set_reference_ok by exact E. reflexivity.
  - rewrite set_reference_wrong by exact E. reflexivity.
Qed.

Lemma calc_exec s x u :
  exec (calc x u) s
  = if decide (length u = nu_ (this s))
    then with_data s (with_r (data s) (Eigen.minus u (uref_ (this s))))
    else s.
Proof.
  unfold exec. destruct (decide _) as [E|E].
  - rewrite calc_ok by exact E. reflexivity.
  - rewrite calc_wrong by exact E. reflexivity.
Qed.

(** X5: on a valid model, handing the setter what the getter returns is
    accepted and changes nothing in the store. *)
Theorem set_reference_of_get_reference s :
  valid_model (this s) ->
  set_reference (get_reference (this s)) s = (Returned tt, s).
Proof.
  intros [_ Hu]. unfold get_reference.
  rewrite set_reference_ok by exact Hu.
  rewrite with_uref_current. reflexivity.
Qed.

(** X6: of two accepted [set_reference] calls the last one wins: the store
    is the one the second call alone would leave, and the getter reads the
    second vector.  A refused second call leaves what the first one set. *)
Theorem set_reference_last_wins s a b :
  length a = nu_ (this s) ->
  (length b = nu_ (this s) ->
     exec (set_reference b) (exec (set_reference a) s)
     = exec (set_reference b) s /\
     get_reference (this (exec (set_reference b) (exec (set_reference a) s)))
     = b) /\
  (length b <> nu_ (this s) ->
     exec (set_reference b) (exec (set_reference a) s)
     = exec (set_reference a) s /\
     get_reference (this (exec (set_reference b) (exec (set_reference a) s)))
     = a).
Proof.
  intros Ha. rewrite !set_reference_exec.
  rewrite (decide_True _ _ Ha). simpl.
  split; intros Hb.
  - rewrite !(decide_True _ _ Hb). split; reflexivity.
  - rewrite !(decide_False _ _ Hb). split; reflexivity.
Qed.

(** *** Sequences of calls *)

Local Abbreviation run := (run_op isApprox NDEBUG).

(** What a single call of the interface leaves alone. *)
Lemma run_op_frame s (o : Op Scalar) :
  let s' := exec (run o) s in
  (nu_ (this s') = nu_ (this s) /\ nr_ (this s') = nr_ (this s) /\
   state_ (this s') = state_ (this s) /\
   q_dependent_ (this s') = q_dependent_ (this s) /\
   v_dependent_ (this s') = v_dependent_ (this s) /\
   u_dependent_ (this s') = u_dependent_ (this s)) /\
  (shared (data s') = shared (data s) /\ Rx (data s') = Rx (data s) /\
   Ru (data s') = Ru (data s)).
Proof.
  destruct o as [[x u|x|x u]|reference]; simpl.
  - rewrite calc_exec. destruct (decide _); repeat split.
  - repeat split.
  - rewrite calcDiff_exec. repeat split.
  - rewrite set_reference_exec. destruct (decide _); repeat split.
Qed.

(** A single call keeps a valid model valid and its data dimensioned. *)
Lemma run_op_valid_sized s (o : Op Scalar) :
  valid_model (this s) -> sized_for (this s) (data s) ->
  valid_model (this (exec (run o) s)) /\
  sized_for (this (exec (run o) s)) (data (exec (run o) s)).
Proof.
  intros Hv Hs. destruct o as [k|reference].
  - split.
    + simpl. rewrite run_call_this. exact Hv.
    + apply run_call_sized; assumption.
  - simpl. rewrite set_reference_exec.
    destruct (decide _) as [E|E]; [|split; assumption].
    destruct Hv as [Hnr Hu]. split; [split; simpl; assumption|exact Hs].
Qed.

(** X7: no sequence of calls of the interface ([calc], state-only [calc],
    [calcDiff], [set_reference]; accepted or refused) changes the
    dimensions [nu] and [nr], the state handle or the dependency flags of
    the model, nor the fields [shared], [Rx] and [Ru] of the data object:
    only [uref] and [data.r] are ever written. *)
Theorem ops_frame (os : list (Op Scalar)) s :
  let s' := exec_all (run <$> os) s in
  (nu_ (this s') = nu_ (this s) /\ nr_ (this s') = nr_ (this s) /\
   state_ (this s') = state_ (this s) /\
   q_dependent_ (this s') = q_dependent_ (this s) /\
   v_dependent_ (this s') = v_dependent_ (this s) /\
   u_dependent_ (this s') = u_dependent_ (this s)) /\
  (shared (data s') = shared (data s) /\ Rx (data s') = Rx (data s) /\
   Ru (data s') = Ru (data s)).
Proof.
  revert s. induction os as [|o os IH]; intros s.
  - repeat split.
  - destruct (IH (exec (run o) s)) as [(E1 & E2 & E3 & E4 & E5 & E6) (F1 & F2 & F3)].
    destruct (run_op_frame s o) as [(G1 & G2 & G3 & G4 & G5 & G6) (K1 & K2 & K3)].
    change (exec_all (run <$> o :: os) s)
      with (exec_all (run <$> os) (exec (run o) s)).
    cbv zeta in *. repeat split; congruence.
Qed.

(** X8: on a valid model with a data object dimensioned for it, every
    sequence of calls of the interface leaves a valid model
    ([nr = nu = length uref]) and a data object dimensioned for it: [r] has
    length [nu] and [Ru] is [nu x nu].  So the two operands of the
    subtraction in [calc] always have one size. *)
Theorem ops_preserve_invariants (os : list (Op Scalar)) s :
  valid_model (this s) -> sized_for (this s) (data s) ->
  let s' := exec_all (run <$> os) s in
  valid_model (this s') /\ sized_for (this s') (data s') /\
  length (uref_ (this s')) = nu_ (this s) /\
  length (r (data s')) = nu_ (this s) /\
  Eigen.has_shape (nu_ (this s)) (nu_ (this s)) (Ru (data s')).
Proof.
  intros Hv Hs s'.
  assert (Hinv : valid_model (this s') /\ sized_for (this s') (data s')).
  { subst s'. revert s Hv Hs. induction os as [|o os IH]; intros s Hv Hs; simpl.
    - split; assumption.
    - destruct (run_op_valid_sized s o Hv Hs) as [Hv' Hs']. apply IH; assumption. }
  destruct (ops_frame os s) as [(Enu & Enr & _) _]. fold s' in Enu, Enr.
  destruct Hinv as [[Hnr Hu] [Hr HRu]].
  split; [split; assumption|]. split; [split; assumption|].
  rewrite Hnr in Hr, HRu. rewrite Enu in Hu, Hr, HRu.
  split; [exact Hu|]. split; [exact Hr|exact HRu].
Qed.

(** X9: a call of the interface that throws has written nothing: the store
    after it is the store before it. *)
Theorem thrown_op_leaves_store s (o : Op Scalar) e :
  outcome (run o) s = Thrown e -> exec (run o) s = s.
Proof.
  destruct o as [[x u|x|x u]|reference]; simpl; intros Hthrow.
  - rewrite calc_exec. destruct (decide _) as [E|E]; [|reflexivity].
    unfold outcome in Hthrow. rewrite calc_ok in Hthrow by exact E.
    discriminate.
  - discriminate.
  - apply calcDiff_exec.
  - rewrite set_reference_exec. destruct (decide _) as [E|E]; [|reflexivity].
    unfold outcome in Hthrow. rewrite set_reference_ok in Hthrow by exact E.
    discriminate.
Qed.

(** X10: the exceptions of the interface.  InvalidArgument comes only from
    [calc] with a control, or [set_reference] with a vector, whose length is
    not [nu], with a message giving the sizes; an assertion failure comes
    only from [calcDiff] in a diagnostics build when [Ru] is not
    approximately the identity.  The state-only [calc] never throws. *)
Theorem op_exceptions s (o : Op Scalar) e :
  outcome (run o) s = Thrown e ->
  (exists x u, o = Evaluate (Calc x u) /\ length u <> nu_ (this s) /\
               e = InvalidArgument (calc_msg (nu_ (this s)))) \/
  (exists reference, o = SetReference reference /\
               length reference <> nu_ (this s) /\
               e = InvalidArgument
                     (set_reference_msg (length reference) (nu_ (this s)))) \/
  (exists x u, o = Evaluate (CalcDiff x u) /\ NDEBUG = false /\
               isApprox (Ru (data s))
                        (Eigen.Identity (nu_ (this s)) (nu_ (this s))) = false /\
               e = AssertionFailure "Ru has wrong value").
Proof.
  destruct o as [[x u|x|x u]|reference]; simpl; unfold outcome; intros Hthrow.
  - left. exists x, u. split; [reflexivity|].
    destruct (decide (length u = nu_ (this s))) as [E|E].
    + rewrite calc_ok in Hthrow by exact E. discriminate.
    + rewrite calc_wrong in Hthrow by exact E. simpl in Hthrow.
      injection Hthrow as <-. split; [exact E|reflexivity].
  - discriminate.
  - right. right. exists x, u. split; [reflexivity|].
    unfold calcDiff, assert_pretty, mbind, M_bind, bind, get in Hthrow.
    simpl in Hthrow. destruct NDEBUG; [discriminate|].
    destruct (isApprox _ _); [discriminate|].
    simpl in Hthrow. injection Hthrow as <-. repeat split.
  - right. left. exists reference. split; [reflexivity|].
    destruct (decide (length reference = nu_ (this s))) as [E|E].
    + rewrite set_reference_ok in Hthrow by exact E. discriminate.
    + rewrite set_reference_wrong in Hthrow by exact E. simpl in Hthrow.
      injection Hthrow as <-. split; [exact E|reflexivity].
Qed.

(** X11: no sequence of evaluation calls ([calc], state-only [calc],
    [calcDiff]), whether they return or throw, writes to the model: the
    reference read afterwards is the one read before. *)
Theorem evaluation_never_writes_model (ks : list (Call Scalar)) s :
  let s' := exec_all (run_call isApprox NDEBUG <$> ks) s in
  this s' = this s /\ get_reference (this s') = get_reference (this s).
Proof.
  intros s'. assert (E : this s' = this s) by apply exec_all_calls_this.
  rewrite E. split; reflexivity.
Qed.

(** *** The Jacobian, continued *)

(** X12: on the data object [createData] returns for a valid model (the
    base constructor handing over a zeroed [nr x nu] buffer), [calcDiff]
    returns normally after any sequence of calls of the interface, in a
    production build and, when [isApprox] accepts the identity against
    itself, in a diagnostics build: the assertion never fires. *)
Theorem calcDiff_returns_on_created_data m c (os : list (Op Scalar)) x u :
  valid_model m ->
  Ru (ResidualDataAbstract_ctor m c) = Eigen.ZeroMatrix (nr_ m) (nu_ m) ->
  isApprox (Eigen.Identity (nu_ m) (nu_ m)) (Eigen.Identity (nu_ m) (nu_ m))
  = true ->
  calcDiff isApprox NDEBUG x u
    (exec_all (run <$> os)
       {| this := m; data := createData ResidualDataAbstract_ctor m c |})
  = (Returned tt,
     exec_all (run <$> os)
       {| this := m; data := createData ResidualDataAbstract_ctor m c |}).
Proof.
  intros [Hnr _] Hzero Hrefl.
  set (s0 := {| this := m; data := createData ResidualDataAbstract_ctor m c |}).
  destruct (ops_frame os s0) as [(Enu & _) (_ & _ & ERu)].
  cbv zeta in Enu, ERu.
  unfold calcDiff, assert_pretty, mbind, M_bind, bind, get. simpl.
  destruct NDEBUG; [reflexivity|].
  rewrite ERu, Enu. simpl.
  rewrite Hzero, Hnr, diagonal_fill_ZeroMatrix, Hrefl. reflexivity.
Qed.

(** X13: [createData] keeps the dimensions the base constructor gave: when
    that constructor sizes [r] with [nr] coefficients and [Ru] as
    [nr x nu], so is the data object [createData] returns. *)
Theorem createData_keeps_dimensions m c :
  sized_for m (ResidualDataAbstract_ctor m c) ->
  sized_for m (createData ResidualDataAbstract_ctor m c) /\
  length (r (createData ResidualDataAbstract_ctor m c)) = nr_ m /\
  length (Ru (createData ResidualDataAbstract_ctor m c)) = nr_ m /\
  forall row, row ∈ Ru (createData ResidualDataAbstract_ctor m c) ->
              length row = nu_ m.
Proof.
  intros Hs. pose proof (createData_sized m c Hs) as [Hr [Hn Hrows]].
  split; [split; [exact Hr|split; assumption]|].
  split; [exact Hr|]. split; [exact Hn|].
  intros row Hrow. exact (proj1 (Forall_forall _ _) Hrows row Hrow).
Qed.

(** *** The residual, continued *)

(** An evaluation call writes [data.r] at most. *)
Lemma run_call_only_r s (k : Call Scalar) :
  exists v, exec (run_call isApprox NDEBUG k) s = with_data s (with_r (data s) v).
Proof.
  assert (Hid : s = with_data s (with_r (data s) (r (data s))))
    by (destruct s as [? []]; reflexivity).
  destruct k as [x u|x|x u]; simpl.
  - rewrite calc_exec. destruct (decide _); eauto.
  - eexists. reflexivity.
  - rewrite calcDiff_exec. eauto.
Qed.

Lemma exec_all_calls_only_r (ks : list (Call Scalar)) s :
  exists v, exec_all (run_call isApprox NDEBUG <$> ks) s
            = with_data s (with_r (data s) v).
Proof.
  revert s. induction ks as [|k ks IH]; intros s.
  - exists (r (data s)). destruct s as [? []]; reflexivity.
  - change (exec_all (run_call isApprox NDEBUG <$> k :: ks) s)
      with (exec_all (run_call isApprox NDEBUG <$> ks)
                     (exec (run_call isApprox NDEBUG k) s)).
    destruct (run_call_only_r s k) as [v ->].
    destruct (IH (with_data s (with_r (data s) v))) as [w ->].
    exists w. reflexivity.
Qed.

(** X14: [calc] keeps no history.  With [u] of length [nu], the store that
    [calc(data, x, u)] leaves after any sequence of earlier evaluation
    calls (accepted or refused, with any states and controls) is the store
    it leaves when called first; in particular calling it twice is calling
    it once. *)
Theorem calc_forgets_history (ks : list (Call Scalar)) s x u :
  length u = nu_ (this s) ->
  exec (calc x u) (exec_all (run_call isApprox NDEBUG <$> ks) s)
  = exec (calc x u) s /\
  exec (calc x u) (exec (calc x u) s) = exec (calc x u) s.
Proof.
  intros E. split.
  - destruct (exec_all_calls_only_r ks s) as [v ->].
    rewrite !calc_exec. simpl. rewrite !(decide_True _ _ E). reflexivity.
  - rewrite !calc_exec. rewrite !(decide_True _ _ E). reflexivity.
Qed.

Lemma minus_diag (v : VectorXs) :
  (forall a : Scalar, s_sub a a = s_zero) ->
  Eigen.minus v v = Eigen.Zero (length v).
Proof.
  intros Hsub. unfold Eigen.minus, Eigen.Zero.
  induction v as [|a v IH]; simpl; [reflexivity|].
  rewrite Hsub, IH. reflexivity.
Qed.

Lemma minus_Zero (v : VectorXs) :
  (forall a : Scalar, s_sub a s_zero = a) ->
  Eigen.minus v (Eigen.Zero (length v)) = v.
Proof.
  intros Hsub. unfold Eigen.minus, Eigen.Zero.
  induction v as [|a v IH]; simpl; [reflexivity|].
  rewrite Hsub, IH. reflexivity.
Qed.

(** X15: over scalars with [a - a = 0], evaluating a valid model at its own
    reference gives the zero residual of length [nu]; on a data object
    whose [r] has length [nu] this is the store the state-only [calc]
    leaves. *)
Theorem calc_at_reference_is_zero s x :
  (forall a : Scalar, s_sub a a = s_zero) ->
  valid_model (this s) ->
  outcome (calc x (get_reference (this s))) s = Returned tt /\
  r (data (exec (calc x (get_reference (this s))) s))
  = replicate (nu_ (this s)) s_zero /\
  (length (r (data s)) = nu_ (this s) ->
   exec (calc x (get_reference (this s))) s = exec (calc_x x) s).
Proof.
  intros Hsub [_ Hu]. unfold get_reference, outcome, exec.
  rewrite calc_ok by exact Hu. simpl.
  rewrite minus_diag by exact Hsub. rewrite Hu.
  split; [reflexivity|]. split; [reflexivity|].
  intros Hr. unfold Eigen.setZero. rewrite Hr. reflexivity.
Qed.

(** X16: over scalars with [a - 0 = a], a model built without a reference
    (from a dimension [nu > 0], or from the state) returns the control
    itself as residual: [calc(data, x, u)] with [u] of length [nu] leaves
    [u] in [data.r]. *)
Theorem calc_default_reference_is_control state nu m d x u :
  (forall a : Scalar, s_sub a s_zero = a) ->
  ResidualModelControl_nu state nu = Returned m \/
  (ResidualModelControl_state state = Returned m /\ get_nv state = nu) ->
  length u = nu ->
  outcome (calc x u) {| this := m; data := d |} = Returned tt /\
  r (data (exec (calc x u) {| this := m; data := d |})) = u.
Proof.
  intros Hsub Hm Hu.
  assert (Hmodel : nu_ m = nu /\ uref_ m = Eigen.Zero nu).
  { destruct Hm as [Hm|[Hm Hnv]].
    - unfold ResidualModelControl_nu in Hm. simpl in Hm.
      destruct (nu =? 0)%nat; [discriminate|].
      injection Hm as <-. split; reflexivity.
    - unfold ResidualModelControl_state in Hm.
      injection Hm as <-. simpl. rewrite Hnv. split; reflexivity. }
  destruct Hmodel as [Hnu Href].
  unfold outcome, exec. rewrite calc_ok by (simpl; congruence). simpl.
  split; [reflexivity|].
  rewrite Href, <- Hu. apply minus_Zero, Hsub.
Qed.

(** X17: [set_reference], accepted or refused, never writes to the data
    object: [data.r] keeps the residual computed against the former
    reference until [calc] is called again. *)
Theorem set_reference_leaves_data s reference :
  data (exec (set_reference reference) s) = data s /\
  r (data (exec (set_reference reference) s)) = r (data s).
Proof.
  rewrite set_reference_exec. destruct (decide _); split; reflexivity.
Qed.

(** X18: the state-only [calc] zeroes [data.r] in place: [r] keeps the
    length it had (it is not resized to [nu]), each of its coefficients is
    zero, nothing else in the store is written, and a second call changes
    nothing more. *)
Theorem calc_x_zeroes_in_place s x x' :
  let s' := exec (calc_x x) s in
  length (r (data s')) = length (r (data s)) /\
  (forall i, i < length (r (data s)) -> r (data s') !! i = Some s_zero) /\
  this s' = this s /\ shared (data s') = shared (data s) /\
  Rx (data s') = Rx (data s) /\ Ru (data s') = Ru (data s) /\
  exec (calc_x x') s' = s'.
Proof.
  cbv zeta. unfold exec. rewrite !calc_x_eq.
  cbn [snd with_data with_r data r this shared Rx Ru].
  split; [apply length_setZero|].
  split; [intros i Hi; apply lookup_replicate_2, Hi|].
  repeat split.
  unfold Eigen.setZero. rewrite length_replicate. reflexivity.
Qed.

(** X19: the constructors agree with one another.  Building from a
    dimension is building from the zero reference of that length, and
    building from a state of tangent dimension [nv <> 0] is building from
    the dimension [nv]. *)
Theorem constructors_agree state nu :
  @ResidualModelControl_nu Scalar _ state nu
  = ResidualModelControl_uref state (Eigen.Zero nu) /\
  (get_nv state <> 0 ->
   @ResidualModelControl_state Scalar _ state
   = ResidualModelControl_nu state (get_nv state)).
Proof.
  split.
  - unfold ResidualModelControl_nu, ResidualModelControl_uref.
    rewrite length_Zero. reflexivity.
  - intros Hnv. unfold ResidualModelControl_nu, ResidualModelControl_state.
    simpl. rewrite (proj2 (Nat.eqb_neq _ _) Hnv). reflexivity.
Qed.

End Properties.

(** ** The properties at concrete inputs *)

(** The scenarios of the specification, by evaluation. *)

Example ctor_uref_123 :
  ResidualModelControl_uref {| get_nv := 3 |} [1; 2; 3]%Z = Returned model123.
Proof. reflexivity. Qed.

Example calc_scenario_equal :
  r (data (exec (calc [] [1; 2; 3]%Z) store123)) = [0; 0; 0]%Z.
Proof. reflexivity. Qed.

Example calc_scenario_zero :
  r (data (exec (calc [] [0; 0; 0]%Z) store123)) = [-1; -2; -3]%Z.
Proof. reflexivity. Qed.

Example calc_wrong_size :
  calc [] [0; 0]%Z store123
  = (Thrown (InvalidArgument
       "Invalid argument: u has wrong dimension (it should be 3)"), store123).
Proof. vm_compute. reflexivity. Qed.

Example set_reference_wrong_size :
  set_reference [4; 5]%Z store123
  = (Thrown (InvalidArgument
       "Invalid argument: the control reference has wrong dimension (2 provided - it should be 3)"),
     store123).
Proof. vm_compute. reflexivity. Qed.

Example createData_identity_3 :
  Ru (createData zeroed_ctor model123 tt) = [[1; 0; 0]; [0; 1; 0]; [0; 0; 1]]%Z.
Proof. reflexivity. Qed.

Example createData_dirty_3 :
  Ru (createData dirty_ctor model123 tt) = [[1; 7; 7]; [7; 1; 7]; [7; 7; 1]]%Z.
Proof. reflexivity. Qed.

Example Identity_3 :
  Eigen.Identity 3 3 = [[1; 0; 0]; [0; 1; 0]; [0; 0; 1]]%Z.
Proof. reflexivity. Qed.

Lemma model123_valid : valid_model model123.
Proof. split; reflexivity. Defined.

(** The residual of the control [[4; 6; 8]] against the reference [[1; 2; 3]]. *)
Lemma calc_residual_witness :
  (valid_model (this store123) /\ 0 < 3 /\
   length (uref_ (this store123)) = 3 /\ length [4; 6; 8]%Z = 3) /\
  outcome (calc [] [4; 6; 8]%Z) store123 = Returned tt /\
  r (data (exec (calc [] [4; 6; 8]%Z) store123))
  = Eigen.minus [4; 6; 8]%Z (uref_ (this store123)) /\
  length (r (data (exec (calc [] [4; 6; 8]%Z) store123))) = 3 /\
  forall i, i < 3 ->
    exists a b, [4; 6; 8]%Z !! i = Some a /\
                uref_ (this store123) !! i = Some b /\
                r (data (exec (calc [] [4; 6; 8]%Z) store123)) !! i
                = Some (s_sub a b).
Proof.
  split.
  - split; [exact model123_valid|]. split; [lia|]. split; reflexivity.
  - apply (calc_residual store123 3 [] [4; 6; 8]%Z).
    + exact model123_valid.
    + lia.
    + reflexivity.
    + reflexivity.
Defined.

(** A control of length 2 given to a model of dimension 3. *)
Lemma calc_wrong_dimension_witness :
  length [4; 6]%Z <> nu_ (this store123) /\
  (exists msg, outcome (calc [] [4; 6]%Z) store123
               = Thrown (InvalidArgument msg)) /\
  exec (calc [] [4; 6]%Z) store123 = store123 /\
  r (data (exec (calc [] [4; 6]%Z) store123)) = r (data store123).
Proof.
  split.
  - simpl. lia.
  - apply (calc_wrong_dimension store123 [] [4; 6]%Z). simpl. lia.
Defined.

(** The state-only evaluation on a data object that holds a residual. *)
Lemma calc_state_only_zero_witness :
  length (r (data store123_evaluated)) = nu_ (this store123_evaluated) /\
  r (data store123_evaluated) = [3; 4; 5]%Z /\
  outcome (calc_x []) store123_evaluated = Returned tt /\
  r (data (exec (calc_x []) store123_evaluated))
  = replicate (nu_ (this store123_evaluated)) 0%Z.
Proof.
  split; [reflexivity|]. split; [reflexivity|].
  exact (calc_state_only_zero store123_evaluated [] eq_refl).
Defined.

(** What an evaluation on [store123] leaves alone. *)
Lemma calc_frame_witness :
  length [4; 6; 8]%Z = nu_ (this store123) /\
  outcome (calc [] [4; 6; 8]%Z) store123 = Returned tt /\
  this (exec (calc [] [4; 6; 8]%Z) store123) = this store123 /\
  shared (data (exec (calc [] [4; 6; 8]%Z) store123)) = shared (data store123) /\
  Rx (data (exec (calc [] [4; 6; 8]%Z) store123)) = Rx (data store123) /\
  Ru (data (exec (calc [] [4; 6; 8]%Z) store123)) = Ru (data store123).
Proof.
  split; [reflexivity|].
  apply (calc_frame store123 [] [4; 6; 8]%Z). reflexivity.
Defined.

(** Construction at dimension 4: the reference reads [[0; 0; 0; 0]]. *)
Lemma ctor_nu_reference_zero_witness :
  0 < 4 /\
  exists m : ResidualModelControlTpl Z,
    ResidualModelControl_nu {| get_nv := 6 |} 4 = Returned m /\
    nu_ m = 4 /\
    get_reference m = [0; 0; 0; 0]%Z.
Proof.
  split; [lia|].
  assert (Hpos : 0 < 4) by lia.
  exact (ctor_nu_reference_zero (Scalar := Z) {| get_nv := 6 |} 4 Hpos).
Defined.

(** A reference of length 3 is taken, one of length 2 is refused. *)
Lemma set_reference_contract_witness :
  (length [7; 7; 7]%Z = nu_ (this store123) /\
   outcome (set_reference [7; 7; 7]%Z) store123 = Returned tt /\
   get_reference (this (exec (set_reference [7; 7; 7]%Z) store123))
   = [7; 7; 7]%Z /\
   forall (ks : list (Call Z)) x u,
     length u = nu_ (this store123) ->
     let s' := exec_all (run_call Z_isApprox false <$> ks)
                        (exec (set_reference [7; 7; 7]%Z) store123) in
     outcome (calc x u) s' = Returned tt /\
     r (data (exec (calc x u) s')) = Eigen.minus u [7; 7; 7]%Z /\
     length (r (data (exec (calc x u) s'))) = nu_ (this store123) /\
     forall i, i < nu_ (this store123) ->
       exists a b, u !! i = Some a /\ [7; 7; 7]%Z !! i = Some b /\
                   r (data (exec (calc x u) s')) !! i = Some (s_sub a b)) /\
  (length [7; 7]%Z <> nu_ (this store123) /\
   (exists msg, outcome (set_reference [7; 7]%Z) store123
                = Thrown (InvalidArgument msg)) /\
   exec (set_reference [7; 7]%Z) store123 = store123 /\
   get_reference (this (exec (set_reference [7; 7]%Z) store123))
   = get_reference (this store123)).
Proof.
  split.
  - split; [reflexivity|].
    apply (proj1 (set_reference_contract Z_isApprox false store123 [7; 7; 7]%Z)).
    reflexivity.
  - split; [simpl; lia|].
    apply (proj2 (set_reference_contract Z_isApprox false store123 [7; 7]%Z)).
    simpl. lia.
Defined.

(** The Jacobian with a base constructor that zeroes its buffers, in a
    diagnostics build. *)
Lemma createData_Ru_identity_witness :
  (valid_model model123 /\
   Ru (zeroed_ctor model123 tt) = Eigen.ZeroMatrix (nr_ model123) (nu_ model123)) /\
  Ru (createData zeroed_ctor model123 tt)
  = Eigen.Identity (nu_ model123) (nu_ model123) /\
  (forall (args : list (list Z * list Z)),
     Ru (data (exec_all
                 ((fun xu => calcDiff Z_isApprox false xu.1 xu.2) <$> args)
                 {| this := model123;
                    data := createData zeroed_ctor model123 tt |}))
     = Eigen.Identity (nu_ model123) (nu_ model123)) /\
  (forall (s : Store Z unit) x u,
     Ru (data (exec (calcDiff Z_isApprox false x u) s)) = Ru (data s)).
Proof.
  split.
  - split; [exact model123_valid | reflexivity].
  - apply (createData_Ru_identity zeroed_ctor Z_isApprox false model123 tt).
    + exact model123_valid.
    + reflexivity.
Defined.

(** With a base constructor that zeroes its buffers, [Ru] is the identity,
    and the off-diagonal entry [(0, 1)] of the base buffer is zero. *)
Lemma createData_writes_diagonal_only_witness :
  Ru (createData zeroed_ctor model123 tt)
  = Eigen.Identity (nr_ model123) (nu_ model123) /\
  Eigen.coeff (Ru (zeroed_ctor model123 tt)) 0 1 = Some 0%Z /\
  Eigen.coeff (Ru (createData zeroed_ctor model123 tt)) 1 1 = Some 1%Z.
Proof.
  pose proof (createData_writes_diagonal_only zeroed_ctor model123 tt)
    as (_ & _ & Hdiag & Honly & _).
  split; [reflexivity|]. split.
  - apply (Honly eq_refl 0 1); simpl; lia.
  - apply (Hdiag 1). exists 0%Z. reflexivity.
Defined.

(** With a base constructor that leaves other values in its buffers, the
    data object [createData] returns does not hold the identity. *)
Lemma createData_dirty_not_identity :
  Ru (createData dirty_ctor model123 tt) <> Eigen.Identity 3 3.
Proof. discriminate. Qed.

(** The diagnostics build notices it: [calcDiff] fails its assertion and
    leaves the store as it is. *)
Lemma calcDiff_dirty_asserts :
  calcDiff Z_isApprox false [] [1; 2; 3]%Z
    {| this := model123; data := createData dirty_ctor model123 tt |}
  = (Thrown (AssertionFailure "Ru has wrong value"),
     {| this := model123; data := createData dirty_ctor model123 tt |}).
Proof. reflexivity. Qed.

(** On a zeroed buffer the assertion of [calcDiff] holds. *)
Lemma calcDiff_zeroed_returns :
  calcDiff Z_isApprox false [] [1; 2; 3]%Z store123 = (Returned tt, store123).
Proof. reflexivity. Qed.

(** ** Further properties at concrete inputs *)

Lemma store123_sized : sized_for (this store123) (data store123).
Proof.
  split; [reflexivity|]. split; [reflexivity|].
  repeat constructor.
Defined.

Lemma Z_sub_diag (a : Z) : s_sub a a = s_zero.
Proof. simpl. apply Z.sub_diag. Defined.

Lemma Z_sub_zero (a : Z) : s_sub a s_zero = a.
Proof. simpl. apply Z.sub_0_r. Defined.

(** The model built from the reference [[1; 2; 3]]. *)
Lemma construction_establishes_invariant_witness :
  (ResidualModelControl_uref {| get_nv := 3 |} [1; 2; 3]%Z = Returned model123 \/
   ResidualModelControl_nu {| get_nv := 3 |} 3 = Returned model123 \/
   ResidualModelControl_state {| get_nv := 3 |} = Returned model123) /\
  valid_model model123 /\ state_ model123 = {| get_nv := 3 |} /\
  q_dependent_ model123 = false /\ v_dependent_ model123 = false /\
  u_dependent_ model123 = true.
Proof.
  assert (Hc : ResidualModelControl_uref {| get_nv := 3 |} [1; 2; 3]%Z
               = Returned model123) by reflexivity.
  split; [left; exact Hc|].
  apply (construction_establishes_invariant {| get_nv := 3 |} [1; 2; 3]%Z 3).
  left. exact Hc.
Defined.

(** The reference [[1; 2; 3]] is read back. *)
Lemma ctor_uref_reference_roundtrip_witness :
  [1; 2; 3]%Z <> [] /\
  exists m, ResidualModelControl_uref {| get_nv := 3 |} [1; 2; 3]%Z = Returned m /\
            get_reference m = [1; 2; 3]%Z /\ nu_ m = 3 /\ nr_ m = 3.
Proof.
  assert (Hne : [1; 2; 3]%Z <> []) by discriminate.
  split; [exact Hne|].
  exact (ctor_uref_reference_roundtrip {| get_nv := 3 |} [1; 2; 3]%Z Hne).
Defined.

(** Setting the reference [store123] already has. *)
Lemma set_reference_of_get_reference_witness :
  valid_model (this store123) /\
  set_reference (get_reference (this store123)) store123 = (Returned tt, store123).
Proof.
  split; [exact model123_valid|].
  exact (set_reference_of_get_reference store123 model123_valid).
Defined.

(** Two references in a row, and a refused second one. *)
Lemma set_reference_last_wins_witness :
  length [7; 7; 7]%Z = nu_ (this store123) /\
  (length [9; 9; 9]%Z = nu_ (this store123) /\
   get_reference (this (exec (set_reference [9; 9; 9]%Z)
                             (exec (set_reference [7; 7; 7]%Z) store123)))
   = [9; 9; 9]%Z) /\
  (length [9]%Z <> nu_ (this store123) /\
   get_reference (this (exec (set_reference [9]%Z)
                             (exec (set_reference [7; 7; 7]%Z) store123)))
   = [7; 7; 7]%Z).
Proof.
  assert (Ha : length [7; 7; 7]%Z = nu_ (this store123)) by reflexivity.
  assert (Hb : length [9; 9; 9]%Z = nu_ (this store123)) by reflexivity.
  assert (Hc : length [9]%Z <> nu_ (this store123)) by (simpl; lia).
  split; [exact Ha|]. split.
  - split; [exact Hb|].
    exact (proj2 (proj1 (set_reference_last_wins store123 _ [9; 9; 9]%Z Ha) Hb)).
  - split; [exact Hc|].
    exact (proj2 (proj2 (set_reference_last_wins store123 _ [9]%Z Ha) Hc)).
Defined.

(** The invariants after the calls of [calls123]. *)
Lemma ops_preserve_invariants_witness :
  (valid_model (this store123) /\ sized_for (this store123) (data store123)) /\
  let s' := exec_all (run_op Z_isApprox false <$> calls123) store123 in
  valid_model (this s') /\ sized_for (this s') (data s') /\
  length (uref_ (this s')) = nu_ (this store123) /\
  length (r (data s')) = nu_ (this store123) /\
  Eigen.has_shape (nu_ (this store123)) (nu_ (this store123)) (Ru (data s')).
Proof.
  split; [split; [exact model123_valid | exact store123_sized]|].
  exact (ops_preserve_invariants Z_isApprox false calls123 store123
           model123_valid store123_sized).
Defined.

(** A refused evaluation on [store123]. *)
Lemma thrown_op_leaves_store_witness :
  outcome (run_op Z_isApprox false (Evaluate (Calc [] [4; 6]%Z))) store123
  = Thrown (InvalidArgument (calc_msg 3)) /\
  exec (run_op Z_isApprox false (Evaluate (Calc [] [4; 6]%Z))) store123
  = store123.
Proof.
  assert (Ht : outcome (run_op Z_isApprox false (Evaluate (Calc [] [4; 6]%Z)))
                 store123 = Thrown (InvalidArgument (calc_msg 3)))
    by (vm_compute; reflexivity).
  split; [exact Ht|].
  exact (thrown_op_leaves_store Z_isApprox false store123 _ _ Ht).
Defined.

(** The exception of a refused reference on [store123]. *)
Lemma op_exceptions_witness :
  outcome (run_op Z_isApprox false (SetReference [7]%Z)) store123
  = Thrown (InvalidArgument (set_reference_msg 1 3)) /\
  ((exists x u, SetReference [7]%Z = Evaluate (Calc x u) /\
                length u <> nu_ (this store123) /\
                InvalidArgument (set_reference_msg 1 3)
                = InvalidArgument (calc_msg (nu_ (this store123)))) \/
   (exists reference, SetReference [7]%Z = SetReference reference /\
                length reference <> nu_ (this store123) /\
                InvalidArgument (set_reference_msg 1 3)
                = InvalidArgument
                    (set_reference_msg (length reference) (nu_ (this store123)))) \/
   (exists x u, SetReference [7]%Z = Evaluate (CalcDiff x u) /\ false = false /\
                Z_isApprox (Ru (data store123))
                  (Eigen.Identity (nu_ (this store123)) (nu_ (this store123)))
                = false /\
                InvalidArgument (set_reference_msg 1 3)
                = AssertionFailure "Ru has wrong value")).
Proof.
  assert (Ht : outcome (run_op Z_isApprox false (SetReference [7]%Z)) store123
               = Thrown (InvalidArgument (set_reference_msg 1 3)))
    by (vm_compute; reflexivity).
  split; [exact Ht|].
  exact (op_exceptions Z_isApprox false store123 _ _ Ht).
Defined.

(** [calcDiff] after the calls of [calls123], in a diagnostics build. *)
Lemma calcDiff_returns_on_created_data_witness :
  (valid_model model123 /\
   Ru (zeroed_ctor model123 tt) = Eigen.ZeroMatrix (nr_ model123) (nu_ model123) /\
   Z_isApprox (Eigen.Identity (nu_ model123) (nu_ model123))
              (Eigen.Identity (nu_ model123) (nu_ model123)) = true) /\
  calcDiff Z_isApprox false [] [4; 6; 8]%Z
    (exec_all (run_op Z_isApprox false <$> calls123)
       {| this := model123; data := createData zeroed_ctor model123 tt |})
  = (Returned tt,
     exec_all (run_op Z_isApprox false <$> calls123)
       {| this := model123; data := createData zeroed_ctor model123 tt |}).
Proof.
  split; [split; [exact model123_valid | split; reflexivity]|].
  exact (calcDiff_returns_on_created_data zeroed_ctor Z_isApprox false
           model123 tt calls123 [] [4; 6; 8]%Z model123_valid eq_refl eq_refl).
Defined.

Lemma zeroed_ctor_sized : sized_for model123 (zeroed_ctor model123 tt).
Proof.
  split; [reflexivity|]. split; [reflexivity|].
  repeat constructor.
Defined.

(** The dimensions of the data object made for [model123]. *)
Lemma createData_keeps_dimensions_witness :
  sized_for model123 (zeroed_ctor model123 tt) /\
  sized_for model123 (createData zeroed_ctor model123 tt) /\
  length (r (createData zeroed_ctor model123 tt)) = nr_ model123 /\
  length (Ru (createData zeroed_ctor model123 tt)) = nr_ model123 /\
  forall row, row ∈ Ru (createData zeroed_ctor model123 tt) ->
              length row = nu_ model123.
Proof.
  split; [exact zeroed_ctor_sized|].
  exact (createData_keeps_dimensions zeroed_ctor model123 tt zeroed_ctor_sized).
Defined.

(** An evaluation after two earlier ones, one of them refused. *)
Lemma calc_forgets_history_witness :
  length [4; 6; 8]%Z = nu_ (this store123) /\
  exec (calc [] [4; 6; 8]%Z)
    (exec_all (run_call Z_isApprox false <$>
                 [Calc [] [0; 0; 0]%Z; Calc [] [1]%Z; CalcState []]) store123)
  = exec (calc [] [4; 6; 8]%Z) store123 /\
  exec (calc [] [4; 6; 8]%Z) (exec (calc [] [4; 6; 8]%Z) store123)
  = exec (calc [] [4; 6; 8]%Z) store123.
Proof.
  split; [reflexivity|].
  exact (calc_forgets_history Z_isApprox false
           [Calc [] [0; 0; 0]%Z; Calc [] [1]%Z; CalcState []]
           store123 [] [4; 6; 8]%Z eq_refl).
Defined.

(** The scenario [u = uref = [1; 2; 3]] of the specification. *)
Lemma calc_at_reference_is_zero_witness :
  ((forall a : Z, s_sub a a = s_zero) /\ valid_model (this store123)) /\
  outcome (calc [] (get_reference (this store123))) store123 = Returned tt /\
  r (data (exec (calc [] (get_reference (this store123))) store123))
  = replicate (nu_ (this store123)) s_zero /\
  (length (r (data store123)) = nu_ (this store123) ->
   exec (calc [] (get_reference (this store123))) store123
   = exec (calc_x []) store123).
Proof.
  split; [split; [exact Z_sub_diag | exact model123_valid]|].
  exact (calc_at_reference_is_zero store123 [] Z_sub_diag model123_valid).
Defined.

(** A model of dimension 3 built without a reference. *)
Lemma calc_default_reference_is_control_witness :
  ((forall a : Z, s_sub a s_zero = a) /\
   (ResidualModelControl_nu {| get_nv := 5 |} 3
    = Returned (Base {| get_nv := 5 |} 3 3 false false true [0; 0; 0]%Z) \/
    (ResidualModelControl_state {| get_nv := 5 |}
     = Returned (Base {| get_nv := 5 |} 3 3 false false true [0; 0; 0]%Z) /\
     get_nv {| get_nv := 5 |} = 3)) /\
   length [4; 6; 8]%Z = 3) /\
  outcome (calc [] [4; 6; 8]%Z)
    {| this := Base {| get_nv := 5 |} 3 3 false false true [0; 0; 0]%Z;
       data := data store123 |} = Returned tt /\
  r (data (exec (calc [] [4; 6; 8]%Z)
             {| this := Base {| get_nv := 5 |} 3 3 false false true [0; 0; 0]%Z;
                data := data store123 |})) = [4; 6; 8]%Z.
Proof.
  assert (Hc : ResidualModelControl_nu {| get_nv := 5 |} 3
               = Returned (Base {| get_nv := 5 |} 3 3 false false true [0; 0; 0]%Z))
    by reflexivity.
  split; [split; [exact Z_sub_zero | split; [left; exact Hc | reflexivity]]|].
  exact (calc_default_reference_is_control {| get_nv := 5 |} 3 _ (data store123)
           [] [4; 6; 8]%Z Z_sub_zero (or_introl Hc) eq_refl).
Defined.

(** A model built from a state of tangent dimension 2. *)
Lemma ctor_state_reference_zero_witness :
  0 < get_nv {| get_nv := 2 |} /\
  exists m : ResidualModelControlTpl Z,
    ResidualModelControl_state {| get_nv := 2 |} = Returned m /\
    nu_ m = 2 /\ nr_ m = 2 /\
    get_reference m = [0; 0]%Z /\
    forall i, i < 2 -> get_reference m !! i = Some 0%Z.
Proof.
  assert (Hpos : 0 < get_nv {| get_nv := 2 |}) by (simpl; lia).
  split; [exact Hpos|].
  exact (ctor_state_reference_zero (Scalar := Z) {| get_nv := 2 |} Hpos).
Defined.

(** After the reference of [store123] is changed to [[7; 7; 7]], the
    control [[10; 9; 8]] has the residual [[3; 2; 1]]. *)
Example calc_after_set_reference :
  r (data (exec (calc [] [10; 9; 8]%Z)
             (exec (set_reference [7; 7; 7]%Z) store123))) = [3; 2; 1]%Z.
Proof. reflexivity. Qed.
